(** * MedAtlas core: the Atlas Graph ([src/core/atlas_graph.py])

    A shallow embedding of the Python module: the [Source] literal type,
    the dataclasses [EvidenceRef] (frozen), [Node], [Edge] and
    [AtlasGraph], and the two methods [AtlasGraph.add_node] and
    [AtlasGraph.add_edge].

    Python objects are modelled by their field values.  The two methods
    mutate [self.nodes] (a [dict]) and [self.edges] (a [list]); that
    mutation is explicit state passing in the monad [AtlasGraph.Py],
    whose computations return the final graph together with either the
    returned Python value or the raised exception. *)

From stdpp Require Import base functions strings gmap list.

#[local] Set Warnings "-register-all,-clear-no-such-hyp".

(** ** Python values, exceptions and results *)

(** The values the module handles without a class of their own: [None]
    (what a method without [return <expr>] yields), booleans, integers,
    strings, lists and dicts (the [payload: dict] of a node). *)
Inductive PyValue : Type :=
| PyNone
| PyBool (b : bool)
| PyInt (n : Z)
| PyStr (s : string)
| PyList (xs : list PyValue)
| PyDict (items : list (string * PyValue)).

(** A raised exception: the name of its class and its message. *)
Record PyExc : Type := Exception { exc_class : string; exc_msg : string }.

(** The outcome of a call: a value is returned or an exception raised. *)
Inductive Result (A : Type) : Type :=
| Return (a : A)
| Raise (exc : PyExc).
Arguments Return {A} a.
Arguments Raise {A} exc.

Definition raises {A} (r : Result A) : bool :=
  match r with Return _ => false | Raise _ => true end.

Definition raises_class {A} (cls : string) (r : Result A) : bool :=
  match r with
  | Return _ => false
  | Raise exc => bool_decide (exc_class exc = cls)
  end.

(** ** [@dataclass] and [@dataclass(frozen=True)]

    The decorator generates [__init__], which stores its arguments in the
    fields and checks nothing, [__eq__], which compares the tuples of
    fields, and, when [frozen=True], a [__setattr__] that raises
    [FrozenInstanceError] whatever the field and the value. *)
Section dataclass.
Context {A F : Type}.
Variable frozen : bool.
Variable field_name : F → string.
Variable field_type : F → Type.
Variable assign : ∀ f : F, field_type f → A → A.

Definition FrozenInstanceError (name : string) : PyExc :=
  Exception "FrozenInstanceError" ("cannot assign to field '" +:+ name +:+ "'").

Definition dataclass_setattr (self : A) (f : F) (value : field_type f) : Result A :=
  if frozen then Raise (FrozenInstanceError (field_name f))
  else Return (assign f value self).
End dataclass.

(** [Source = Literal["fhir", "dicom", "note", "lab", "device", "claims",
    "synthetic"]].  A [Literal] type is an annotation for static
    checkers; at run time a source is a [str], and nothing in the module
    compares it with the seven variants. *)
Definition Source : list string :=
  ["fhir"; "dicom"; "note"; "lab"; "device"; "claims"; "synthetic"].

Definition is_Source (s : string) : bool := bool_decide (s ∈ Source).

(** ** [EvidenceRef] *)
Module EvidenceRef.

Record t : Type := mk {
  source : string;
  id : string;
  uri : option string;
  captured_at : option string
}.

(** [@dataclass(frozen=True)] *)
Definition frozen : bool := true.

Inductive field : Type := f_source | f_id | f_uri | f_captured_at.

Definition field_name (f : field) : string :=
  match f with
  | f_source => "source"
  | f_id => "id"
  | f_uri => "uri"
  | f_captured_at => "captured_at"
  end.

Definition field_type (f : field) : Type :=
  match f with
  | f_source | f_id => string
  | f_uri | f_captured_at => option string
  end.

Definition assign (f : field) : field_type f → t → t :=
  match f with
  | f_source => λ v self, mk v (id self) (uri self) (captured_at self)
  | f_id => λ v self, mk (source self) v (uri self) (captured_at self)
  | f_uri => λ v self, mk (source self) (id self) v (captured_at self)
  | f_captured_at => λ v self, mk (source self) (id self) (uri self) v
  end.

(** The generated [__init__(self, source, id, uri=None,
    captured_at=None)]: no [__post_init__] is defined, so the arguments
    are stored as they come. *)
Definition init (source id : string) (uri captured_at : option string) : Result t :=
  Return (mk source id uri captured_at).

(** The generated [__eq__]: the tuples [(source, id, uri, captured_at)]
    of both sides are compared, component by component. *)
Definition eq (self other : t) : bool :=
  String.eqb (source self) (source other)
  && String.eqb (id self) (id other)
  && bool_decide (uri self = uri other)
  && bool_decide (captured_at self = captured_at other).

(** The generated [__setattr__], here that of a frozen dataclass. *)
Definition setattr : ∀ (self : t) (f : field), field_type f → Result t :=
  dataclass_setattr frozen field_name field_type assign.

(** A frozen dataclass with [__eq__] is hashable: its values can be the
    elements of a [set]. *)
#[global] Instance eq_dec : EqDecision t.
Proof. solve_decision. Defined.

#[global] Instance countable : Countable t.
Proof.
  refine (inj_countable'
            (λ r, (source r, id r, uri r, captured_at r))
            (λ p, mk p.1.1.1 p.1.1.2 p.1.2 p.2) _).
  by intros [].
Defined.

End EvidenceRef.

(** ** [Node] *)
Module Node.

Record t : Type := mk {
  id : string;
  kind : string;
  payload : list (string * PyValue)
}.

(** [@dataclass], not frozen. *)
Definition frozen : bool := false.

Definition init (id kind : string) (payload : list (string * PyValue)) : Result t :=
  Return (mk id kind payload).

End Node.

(** ** [Edge] *)
Module Edge.

Record t : Type := mk {
  src : string;
  dst : string;
  kind : string;
  evidence : list EvidenceRef.t
}.

Definition frozen : bool := false.

(** The generated [__init__]: no check on [evidence], on [src] or on
    [dst]. *)
Definition init (src dst kind : string) (evidence : list EvidenceRef.t) : Result t :=
  Return (mk src dst kind evidence).

End Edge.

(** ** [AtlasGraph] *)
Module AtlasGraph.

Record t : Type := mk {
  nodes : gmap string Node.t;
  edges : list Edge.t
}.

(** [AtlasGraph(nodes={}, edges=[])] *)
Definition empty : t := mk ∅ [].

(** A method call on [self]: the outcome and the graph it leaves.  An
    exception does not roll the graph back, so the final graph is part of
    the result on both paths. *)
Definition Py (A : Type) : Type := t → Result A * t.

Definition ret {A} (a : A) : Py A := λ self, (Return a, self).

Definition bind {A B} (m : Py A) (k : A → Py B) : Py B :=
  λ self,
    match m self with
    | (Return a, self') => k a self'
    | (Raise exc, self') => (Raise exc, self')
    end.

#[global] Instance Py_ret : MRet Py := @ret.
#[global] Instance Py_bind : MBind Py := λ A B k m, bind m k.

(** [key in self.nodes] *)
Definition nodes_contains (key : string) : Py bool :=
  λ self, (Return (bool_decide (is_Some (nodes self !! key))), self).

(** [self.nodes[key] = node] *)
Definition nodes_setitem (key : string) (node : Node.t) : Py unit :=
  λ self, (Return (), mk (<[key := node]> (nodes self)) (edges self)).

(** [self.edges.append(edge)] *)
Definition edges_append (edge : Edge.t) : Py unit :=
  λ self, (Return (), mk (nodes self) (edges self ++ [edge])).

(** [[
    def add_node(self, node: Node) -> None:
        if node.id in self.nodes:
            return
        self.nodes[node.id] = node
    ]] *)
Definition add_node (node : Node.t) : Py PyValue :=
  present ← nodes_contains (Node.id node);
  if (present : bool) then mret PyNone
  else nodes_setitem (Node.id node) node ;; mret PyNone.

(** [[
    def add_edge(self, edge: Edge) -> None:
        self.edges.append(edge)
    ]] *)
Definition add_edge (edge : Edge.t) : Py PyValue :=
  edges_append edge ;; mret PyNone.

(** The outcome of a call and the graph after it. *)
Definition outcome {A} (m : Py A) (self : t) : Result A := fst (m self).
Definition exec {A} (m : Py A) (self : t) : t := snd (m self).

(** One mutation of the graph through its methods. *)
Inductive step (g : t) : t → Prop :=
| step_add_node (node : Node.t) : step g (exec (add_node node) g)
| step_add_edge (edge : Edge.t) : step g (exec (add_edge edge) g).

(** The graphs built from the empty one with [add_node] and [add_edge]. *)
Inductive reachable : t → Prop :=
| reachable_empty : reachable empty
| reachable_step (g g' : t) : reachable g → step g g' → reachable g'.

(** *** Queries of the specification

    The class of the source has the two methods above and no other. *)

(** An edge touches [node_id] when it starts or ends there. *)
Definition touches (node_id : string) (edge : Edge.t) : bool :=
  bool_decide (Edge.src edge = node_id) || bool_decide (Edge.dst edge = node_id).

(** Modelled from the spec: [trace(node_id) -> set of EvidenceRef], which
    the source does not define.  The specification has it compute the
    union of evidence across every edge touching [node_id]: one pass over
    [self.edges] that adds the evidence of each touching edge to the
    result set. *)
Definition trace (node_id : string) (self : t) : gset EvidenceRef.t :=
  foldl (λ acc edge,
           if touches node_id edge
           then foldl (λ acc' ref, {[ref]} ∪ acc') acc (Edge.evidence edge)
           else acc)
        ∅ (edges self).

(** The evidence sets [S1 .. Sn] of the edges [E1 .. En] touching
    [node_id], in edge order. *)
Definition evidence_sets (node_id : string) (self : t) : list (gset EvidenceRef.t) :=
  (λ edge, list_to_set (Edge.evidence edge)) <$> filter (λ edge, touches node_id edge = true) (edges self).

End AtlasGraph.

(** ** Sample values: two nodes, an edge between them, and two edges
    that a validating graph would turn down *)
Module Sample.

Definition patient1 : Node.t := Node.mk "patient/1" "Patient" [].
Definition obs1 : Node.t := Node.mk "obs/1" "Observation" [].
Definition patient1_again : Node.t :=
  Node.mk "patient/1" "Person" [("name", PyStr "J. Doe")].

Definition fhir_obs1 : EvidenceRef.t :=
  EvidenceRef.mk "fhir" "Observation/1" None None.
Definition lab_obs1 : EvidenceRef.t :=
  EvidenceRef.mk "lab" "L-17" (Some "urn:lab:L-17") (Some "2024-01-05T10:00:00Z").

Definition subject_edge : Edge.t :=
  Edge.mk "obs/1" "patient/1" "subject" [fhir_obs1].
Definition derived_edge : Edge.t :=
  Edge.mk "patient/1" "obs/1" "has_result" [lab_obs1; fhir_obs1; lab_obs1].
Definition dangling_edge : Edge.t :=
  Edge.mk "obs/99" "patient/1" "subject" [fhir_obs1].
Definition unsupported_edge : Edge.t :=
  Edge.mk "obs/1" "patient/1" "subject" [].

Definition two_nodes : AtlasGraph.t :=
  AtlasGraph.exec (AtlasGraph.add_node obs1)
    (AtlasGraph.exec (AtlasGraph.add_node patient1) AtlasGraph.empty).

Definition linked : AtlasGraph.t :=
  AtlasGraph.exec (AtlasGraph.add_edge subject_edge) two_nodes.

End Sample.

(** ** Sequences of calls

    A client of the graph calls the two methods one after the other on
    the same graph. *)
Module Calls.

Inductive call : Type :=
| add_node (node : Node.t)
| add_edge (edge : Edge.t).

Definition perform (c : call) : AtlasGraph.Py PyValue :=
  match c with
  | add_node node => AtlasGraph.add_node node
  | add_edge edge => AtlasGraph.add_edge edge
  end.

Fixpoint run (calls : list call) : AtlasGraph.Py PyValue :=
  match calls with
  | [] => mret PyNone
  | c :: rest => perform c ;; run rest
  end.

(** The arguments of the [add_node] calls, and of the [add_edge] calls,
    in call order. *)
Definition added_nodes (calls : list call) : list Node.t :=
  omap (λ c, match c with add_node node => Some node | add_edge _ => None end) calls.

Definition added_edges (calls : list call) : list Edge.t :=
  omap (λ c, match c with add_node _ => None | add_edge edge => Some edge end) calls.

End Calls.

(** Every key of [self.nodes] is the id of the node stored under it. *)
Definition well_keyed (g : AtlasGraph.t) : Prop :=
  map_Forall (λ key node, Node.id node = key) (AtlasGraph.nodes g).

(** ** Assignment to the fields of a [Node]

    [Node] is a [@dataclass] that is not frozen: [node.kind = value] and
    the like go through the default [__setattr__] and store the value. *)
Module NodeAttr.

Inductive field : Type := f_id | f_kind | f_payload.

Definition field_name (f : field) : string :=
  match f with
  | f_id => "id"
  | f_kind => "kind"
  | f_payload => "payload"
  end.

Definition field_type (f : field) : Type :=
  match f with
  | f_id | f_kind => string
  | f_payload => list (string * PyValue)
  end.

Definition assign (f : field) : field_type f → Node.t → Node.t :=
  match f with
  | f_id => λ v self, Node.mk v (Node.kind self) (Node.payload self)
  | f_kind => λ v self, Node.mk (Node.id self) v (Node.payload self)
  | f_payload => λ v self, Node.mk (Node.id self) (Node.kind self) v
  end.

Definition setattr : ∀ (self : Node.t) (f : field), field_type f → Result Node.t :=
  dataclass_setattr Node.frozen field_name field_type assign.

End NodeAttr.

(** ** The graph with its nodes held by reference

    [self.nodes[node.id] = node] stores the [Node] object itself, not a
    copy of it: the caller keeps its reference to the object, and [Node]
    is mutable.  Here the [Node] objects live in a store indexed by
    references, the node mapping holds references, and an assignment to
    a field of a node updates the store. *)
Module Heap.

Definition ref : Type := positive.

Record t : Type := mk {
  objects : ref → Node.t;
  nodes : gmap string ref;
  edges : list Edge.t
}.

(** [add_node], the argument being a reference to a [Node] object:
    [node.id] is read from the object at the time of the call. *)
Definition add_node (node : ref) (self : t) : Result PyValue * t :=
  let key := Node.id (objects self node) in
  if bool_decide (is_Some (nodes self !! key)) then (Return PyNone, self)
  else (Return PyNone, mk (objects self) (<[key := node]> (nodes self)) (edges self)).

Definition add_edge (edge : Edge.t) (self : t) : Result PyValue * t :=
  (Return PyNone, mk (objects self) (nodes self) (edges self ++ [edge])).

(** [node.<field> = value], for the object that [node] refers to. *)
Definition setattr (node : ref) (f : NodeAttr.field) (value : NodeAttr.field_type f)
    (self : t) : Result PyValue * t :=
  match NodeAttr.setattr (objects self node) f value with
  | Return obj => (Return PyNone, mk (<[node := obj]> (objects self)) (nodes self) (edges self))
  | Raise exc => (Raise exc, self)
  end.

(** What the graph holds, each reference replaced by the current value
    of the object it refers to. *)
Definition view (self : t) : AtlasGraph.t :=
  AtlasGraph.mk (objects self <$> nodes self) (edges self).

End Heap.

(** * Properties *)

(** ** What the two methods compute *)

Lemma add_node_unfold (node : Node.t) (g : AtlasGraph.t) :
  AtlasGraph.add_node node g =
  if bool_decide (is_Some (AtlasGraph.nodes g !! Node.id node))
  then (Return PyNone, g)
  else (Return PyNone,
        AtlasGraph.mk (<[Node.id node := node]> (AtlasGraph.nodes g)) (AtlasGraph.edges g)).
Proof.
  unfold AtlasGraph.add_node, mbind, AtlasGraph.Py_bind, AtlasGraph.bind.
  unfold AtlasGraph.nodes_contains.
  by destruct (bool_decide _).
Qed.

Lemma add_edge_unfold (edge : Edge.t) (g : AtlasGraph.t) :
  AtlasGraph.add_edge edge g =
  (Return PyNone, AtlasGraph.mk (AtlasGraph.nodes g) (AtlasGraph.edges g ++ [edge])).
Proof. reflexivity. Qed.

Lemma add_node_present (node : Node.t) (g : AtlasGraph.t) :
  is_Some (AtlasGraph.nodes g !! Node.id node) →
  AtlasGraph.add_node node g = (Return PyNone, g).
Proof. intros Hin. rewrite add_node_unfold. by rewrite bool_decide_eq_true_2. Qed.

Lemma add_node_absent (node : Node.t) (g : AtlasGraph.t) :
  AtlasGraph.nodes g !! Node.id node = None →
  AtlasGraph.add_node node g =
  (Return PyNone,
   AtlasGraph.mk (<[Node.id node := node]> (AtlasGraph.nodes g)) (AtlasGraph.edges g)).
Proof.
  intros Hout. rewrite add_node_unfold. rewrite bool_decide_eq_false_2; [done |].
  rewrite Hout. by intros [? ?].
Qed.

(** After [add_node node] the id of [node] is a key of the mapping. *)
Lemma add_node_registers (node : Node.t) (g : AtlasGraph.t) :
  is_Some (AtlasGraph.nodes (AtlasGraph.exec (AtlasGraph.add_node node) g) !! Node.id node).
Proof.
  unfold AtlasGraph.exec.
  destruct (AtlasGraph.nodes g !! Node.id node) as [old |] eqn:Hlook.
  - rewrite add_node_present; [| by rewrite Hlook]. simpl. by rewrite Hlook.
  - rewrite add_node_absent; [| done]. simpl. rewrite lookup_insert_eq. by eexists.
Qed.

Lemma add_node_edges (node : Node.t) (g : AtlasGraph.t) :
  AtlasGraph.edges (AtlasGraph.exec (AtlasGraph.add_node node) g) = AtlasGraph.edges g.
Proof.
  unfold AtlasGraph.exec. rewrite add_node_unfold. by destruct (bool_decide _).
Qed.

(** ** Node insertion *)

(** C3.  Node insertion is idempotent by id: [add_node(n)] called twice
    leaves the node mapping (indeed the whole graph) as one call leaves
    it, and when the id of [n] is already a key, [add_node(n)] changes
    nothing: the node stored first stays under that key. *)
Theorem add_node_idempotent (n : Node.t) (g : AtlasGraph.t) :
  AtlasGraph.nodes (AtlasGraph.exec (AtlasGraph.add_node n) (AtlasGraph.exec (AtlasGraph.add_node n) g))
  = AtlasGraph.nodes (AtlasGraph.exec (AtlasGraph.add_node n) g)
  ∧ AtlasGraph.exec (AtlasGraph.add_node n) (AtlasGraph.exec (AtlasGraph.add_node n) g)
    = AtlasGraph.exec (AtlasGraph.add_node n) g
  ∧ ∀ first : Node.t,
      AtlasGraph.nodes g !! Node.id n = Some first →
      AtlasGraph.exec (AtlasGraph.add_node n) g = g
      ∧ AtlasGraph.nodes (AtlasGraph.exec (AtlasGraph.add_node n) g) !! Node.id n = Some first.
Proof.
  assert (Htwice : AtlasGraph.exec (AtlasGraph.add_node n) (AtlasGraph.exec (AtlasGraph.add_node n) g)
                   = AtlasGraph.exec (AtlasGraph.add_node n) g).
  { unfold AtlasGraph.exec at 1.
    by rewrite (add_node_present n _ (add_node_registers n g)). }
  split; [by rewrite Htwice |]. split; [exact Htwice |].
  intros first Hfirst.
  assert (Hsame : AtlasGraph.exec (AtlasGraph.add_node n) g = g).
  { unfold AtlasGraph.exec. rewrite add_node_present; [done |]. by rewrite Hfirst. }
  by rewrite Hsame.
Qed.

Lemma add_node_idempotent_witness :
  AtlasGraph.nodes Sample.two_nodes !! Node.id Sample.patient1_again = Some Sample.patient1
  ∧ AtlasGraph.exec (AtlasGraph.add_node Sample.patient1_again) Sample.two_nodes = Sample.two_nodes
  ∧ AtlasGraph.nodes (AtlasGraph.exec (AtlasGraph.add_node Sample.patient1_again) Sample.two_nodes)
      !! "patient/1" = Some Sample.patient1.
Proof.
  assert (Hfirst : AtlasGraph.nodes Sample.two_nodes !! Node.id Sample.patient1_again
                   = Some Sample.patient1) by (vm_compute; reflexivity).
  split; [exact Hfirst |].
  exact (proj2 (proj2 (add_node_idempotent Sample.patient1_again Sample.two_nodes))
           Sample.patient1 Hfirst).
Defined.

(** C4, as the code has it.  [add_node(node)] returns [None] on both
    paths; it stores [node] under [node.id] when that id is not yet a
    key, and has no side effect when the id is already a key. *)
Theorem add_node_returns_None (node : Node.t) (g : AtlasGraph.t) :
  AtlasGraph.outcome (AtlasGraph.add_node node) g = Return PyNone
  ∧ (AtlasGraph.nodes g !! Node.id node = None →
     AtlasGraph.exec (AtlasGraph.add_node node) g
     = AtlasGraph.mk (<[Node.id node := node]> (AtlasGraph.nodes g)) (AtlasGraph.edges g))
  ∧ (is_Some (AtlasGraph.nodes g !! Node.id node) →
     AtlasGraph.exec (AtlasGraph.add_node node) g = g).
Proof.
  unfold AtlasGraph.outcome, AtlasGraph.exec. split; [| split].
  - rewrite add_node_unfold. by destruct (bool_decide _).
  - intros Hout. by rewrite add_node_absent.
  - intros Hin. by rewrite add_node_present.
Qed.

Lemma add_node_returns_None_witness :
  (AtlasGraph.nodes AtlasGraph.empty !! Node.id Sample.patient1 = None
   ∧ AtlasGraph.exec (AtlasGraph.add_node Sample.patient1) AtlasGraph.empty
     = AtlasGraph.mk (<[Node.id Sample.patient1 := Sample.patient1]> (AtlasGraph.nodes AtlasGraph.empty))
                     (AtlasGraph.edges AtlasGraph.empty))
  ∧ (is_Some (AtlasGraph.nodes Sample.two_nodes !! Node.id Sample.patient1_again)
     ∧ AtlasGraph.exec (AtlasGraph.add_node Sample.patient1_again) Sample.two_nodes
       = Sample.two_nodes).
Proof.
  assert (Hout : AtlasGraph.nodes AtlasGraph.empty !! Node.id Sample.patient1 = None)
    by (vm_compute; reflexivity).
  assert (Hin : is_Some (AtlasGraph.nodes Sample.two_nodes !! Node.id Sample.patient1_again))
    by (exists Sample.patient1; vm_compute; reflexivity).
  split; split; [exact Hout | | exact Hin |].
  - exact (proj1 (proj2 (add_node_returns_None Sample.patient1 AtlasGraph.empty)) Hout).
  - exact (proj2 (proj2 (add_node_returns_None Sample.patient1_again Sample.two_nodes)) Hin).
Defined.

(** C4, as the specification words it, fails: the node is inserted, and
    the call returns [None], not [True]; the id is already present, and
    the call returns [None], not [False]. *)
Lemma add_node_returns_no_bool :
  (AtlasGraph.nodes AtlasGraph.empty !! Node.id Sample.patient1 = None
   ∧ AtlasGraph.nodes (AtlasGraph.exec (AtlasGraph.add_node Sample.patient1) AtlasGraph.empty)
       !! Node.id Sample.patient1 = Some Sample.patient1
   ∧ AtlasGraph.outcome (AtlasGraph.add_node Sample.patient1) AtlasGraph.empty
     ≠ Return (PyBool true))
  ∧ (is_Some (AtlasGraph.nodes Sample.two_nodes !! Node.id Sample.patient1)
     ∧ AtlasGraph.outcome (AtlasGraph.add_node Sample.patient1) Sample.two_nodes
       ≠ Return (PyBool false)).
Proof.
  repeat split; try (vm_compute; reflexivity).
  - vm_compute. discriminate.
  - exists Sample.patient1. vm_compute. reflexivity.
  - vm_compute. discriminate.
Qed.

(** ** Edge insertion *)

(** C10.  For every edge (whatever its evidence list, its endpoints and
    whether [src] equals [dst]) and every graph, [add_edge] raises
    nothing, appends the edge at the end of the edge sequence and leaves
    the node mapping as it was. *)
Theorem add_edge_appends (edge : Edge.t) (g : AtlasGraph.t) :
  AtlasGraph.outcome (AtlasGraph.add_edge edge) g = Return PyNone
  ∧ raises (AtlasGraph.outcome (AtlasGraph.add_edge edge) g) = false
  ∧ AtlasGraph.edges (AtlasGraph.exec (AtlasGraph.add_edge edge) g) = AtlasGraph.edges g ++ [edge]
  ∧ AtlasGraph.nodes (AtlasGraph.exec (AtlasGraph.add_edge edge) g) = AtlasGraph.nodes g.
Proof.
  unfold AtlasGraph.outcome, AtlasGraph.exec. by rewrite add_edge_unfold.
Qed.

(** C1, as the code has it.  For every edge whose [src] or [dst] is not a
    key of the node mapping, [add_edge] raises nothing and commits the
    edge: the edge sequence is the previous one with the edge appended,
    one longer than before, and the node mapping is unchanged. *)
Theorem add_edge_dangling_accepted (edge : Edge.t) (g : AtlasGraph.t) :
  AtlasGraph.nodes g !! Edge.src edge = None ∨ AtlasGraph.nodes g !! Edge.dst edge = None →
  AtlasGraph.outcome (AtlasGraph.add_edge edge) g = Return PyNone
  ∧ AtlasGraph.edges (AtlasGraph.exec (AtlasGraph.add_edge edge) g) = AtlasGraph.edges g ++ [edge]
  ∧ length (AtlasGraph.edges (AtlasGraph.exec (AtlasGraph.add_edge edge) g))
    = S (length (AtlasGraph.edges g))
  ∧ AtlasGraph.nodes (AtlasGraph.exec (AtlasGraph.add_edge edge) g) = AtlasGraph.nodes g.
Proof.
  intros _. unfold AtlasGraph.outcome, AtlasGraph.exec. rewrite add_edge_unfold. simpl.
  repeat split. rewrite length_app. simpl. lia.
Qed.

Lemma add_edge_dangling_accepted_witness :
  (AtlasGraph.nodes Sample.two_nodes !! Edge.src Sample.dangling_edge = None
   ∨ AtlasGraph.nodes Sample.two_nodes !! Edge.dst Sample.dangling_edge = None)
  ∧ AtlasGraph.outcome (AtlasGraph.add_edge Sample.dangling_edge) Sample.two_nodes = Return PyNone
  ∧ AtlasGraph.edges (AtlasGraph.exec (AtlasGraph.add_edge Sample.dangling_edge) Sample.two_nodes)
    = AtlasGraph.edges Sample.two_nodes ++ [Sample.dangling_edge]
  ∧ length (AtlasGraph.edges (AtlasGraph.exec (AtlasGraph.add_edge Sample.dangling_edge) Sample.two_nodes))
    = S (length (AtlasGraph.edges Sample.two_nodes))
  ∧ AtlasGraph.nodes (AtlasGraph.exec (AtlasGraph.add_edge Sample.dangling_edge) Sample.two_nodes)
    = AtlasGraph.nodes Sample.two_nodes.
Proof.
  assert (Hdangling : AtlasGraph.nodes Sample.two_nodes !! Edge.src Sample.dangling_edge = None
                      ∨ AtlasGraph.nodes Sample.two_nodes !! Edge.dst Sample.dangling_edge = None)
    by (left; vm_compute; reflexivity).
  split; [exact Hdangling |].
  exact (add_edge_dangling_accepted Sample.dangling_edge Sample.two_nodes Hdangling).
Defined.

(** C1, as the specification words it, fails: [obs/99] is not a node of
    the graph, yet [add_edge] raises no [DanglingReference] (it raises
    nothing), and the edge sequence is one longer than before. *)
Lemma add_edge_dangling_not_rejected :
  AtlasGraph.nodes Sample.two_nodes !! Edge.src Sample.dangling_edge = None
  ∧ raises_class "DanglingReference"
      (AtlasGraph.outcome (AtlasGraph.add_edge Sample.dangling_edge) Sample.two_nodes) = false
  ∧ raises (AtlasGraph.outcome (AtlasGraph.add_edge Sample.dangling_edge) Sample.two_nodes) = false
  ∧ AtlasGraph.exec (AtlasGraph.add_edge Sample.dangling_edge) Sample.two_nodes ≠ Sample.two_nodes
  ∧ length (AtlasGraph.edges (AtlasGraph.exec (AtlasGraph.add_edge Sample.dangling_edge) Sample.two_nodes))
    ≠ length (AtlasGraph.edges Sample.two_nodes).
Proof.
  split; [vm_compute; reflexivity |].
  split; [vm_compute; reflexivity |].
  split; [vm_compute; reflexivity |].
  assert (Hlen : length (AtlasGraph.edges (AtlasGraph.exec (AtlasGraph.add_edge Sample.dangling_edge) Sample.two_nodes))
                 ≠ length (AtlasGraph.edges Sample.two_nodes)).
  { unfold AtlasGraph.exec. rewrite add_edge_unfold. simpl.
    rewrite length_app. simpl. lia. }
  split; [| exact Hlen].
  intros Heq. apply Hlen. by rewrite Heq.
Qed.

(** C2, as the code has it.  An edge with an empty evidence list is
    accepted: constructing it raises nothing, and [add_edge] on it raises
    nothing and commits it as the last edge of the graph. *)
Theorem add_edge_empty_evidence_committed (src dst kind : string) (g : AtlasGraph.t) :
  Edge.init src dst kind [] = Return (Edge.mk src dst kind [])
  ∧ AtlasGraph.outcome (AtlasGraph.add_edge (Edge.mk src dst kind [])) g = Return PyNone
  ∧ AtlasGraph.edges (AtlasGraph.exec (AtlasGraph.add_edge (Edge.mk src dst kind [])) g)
    = AtlasGraph.edges g ++ [Edge.mk src dst kind []]
  ∧ last (AtlasGraph.edges (AtlasGraph.exec (AtlasGraph.add_edge (Edge.mk src dst kind [])) g))
    = Some (Edge.mk src dst kind []).
Proof.
  unfold AtlasGraph.outcome, AtlasGraph.exec. rewrite add_edge_unfold. simpl.
  repeat split. by rewrite last_snoc.
Qed.

(** C2, as the specification words it, fails: constructing the edge with
    no evidence raises no [ValidationError], [add_edge] on it raises no
    [EmptyEvidence], and after the call an edge with zero evidence
    references is in the graph. *)
Lemma empty_evidence_not_rejected :
  Edge.init "obs/1" "patient/1" "subject" [] = Return Sample.unsupported_edge
  ∧ raises_class "ValidationError" (Edge.init "obs/1" "patient/1" "subject" []) = false
  ∧ raises_class "EmptyEvidence"
      (AtlasGraph.outcome (AtlasGraph.add_edge Sample.unsupported_edge) Sample.two_nodes) = false
  ∧ Sample.unsupported_edge
    ∈ AtlasGraph.edges (AtlasGraph.exec (AtlasGraph.add_edge Sample.unsupported_edge) Sample.two_nodes)
  ∧ length (Edge.evidence Sample.unsupported_edge) = 0.
Proof.
  repeat split; try reflexivity.
  unfold AtlasGraph.exec. rewrite add_edge_unfold. simpl. set_solver.
Qed.

(** ** Invariants of the graphs built with the two methods *)

Lemma step_nodes_lookup (g g' : AtlasGraph.t) (key : string) (node : Node.t) :
  AtlasGraph.step g g' →
  AtlasGraph.nodes g' !! key = Some node →
  AtlasGraph.nodes g !! key = Some node ∨ (AtlasGraph.nodes g !! key = None ∧ Node.id node = key).
Proof.
  intros [added | edge]; unfold AtlasGraph.exec.
  - rewrite add_node_unfold. case_bool_decide as Hin; simpl; [by left |].
    destruct (decide (Node.id added = key)) as [<- | Hne].
    + rewrite lookup_insert_eq. intros [= <-]. right. split; [| done].
      destruct (AtlasGraph.nodes g !! Node.id added) eqn:Hlook; [| done].
      exfalso. apply Hin. by eexists.
    + rewrite lookup_insert_ne; [| done]. by left.
  - rewrite add_edge_unfold. simpl. by left.
Qed.

(** C5.  In every graph built from the empty one with [add_node] and
    [add_edge], each key of the node mapping is the id of the node stored
    under it. *)
Theorem node_keys_are_ids (g : AtlasGraph.t) :
  AtlasGraph.reachable g →
  ∀ (key : string) (node : Node.t),
    AtlasGraph.nodes g !! key = Some node → Node.id node = key.
Proof.
  induction 1 as [| g g' Hreach IH Hstep]; intros key node Hlook.
  - unfold AtlasGraph.empty in Hlook. simpl in Hlook. by rewrite lookup_empty in Hlook.
  - destruct (step_nodes_lookup g g' key node Hstep Hlook) as [Hold | [_ Hid]].
    + by apply IH.
    + exact Hid.
Qed.

Lemma linked_reachable : AtlasGraph.reachable Sample.linked.
Proof.
  unfold Sample.linked, Sample.two_nodes.
  eapply AtlasGraph.reachable_step; [| apply AtlasGraph.step_add_edge].
  eapply AtlasGraph.reachable_step; [| apply AtlasGraph.step_add_node].
  eapply AtlasGraph.reachable_step; [| apply AtlasGraph.step_add_node].
  apply AtlasGraph.reachable_empty.
Defined.

Lemma node_keys_are_ids_witness :
  AtlasGraph.reachable Sample.linked
  ∧ AtlasGraph.nodes Sample.linked !! "obs/1" = Some Sample.obs1
  ∧ Node.id Sample.obs1 = "obs/1".
Proof.
  assert (Hlook : AtlasGraph.nodes Sample.linked !! "obs/1" = Some Sample.obs1)
    by (vm_compute; reflexivity).
  split; [exact linked_reachable |]. split; [exact Hlook |].
  exact (node_keys_are_ids Sample.linked linked_reachable "obs/1" Sample.obs1 Hlook).
Defined.

(** C6.  Mutations are monotonic: after one call of [add_node] or
    [add_edge], every node of the mapping is still there under its key,
    unchanged, and the previous edge sequence is a prefix of the new
    one. *)
Theorem mutations_monotonic (g g' : AtlasGraph.t) :
  AtlasGraph.step g g' →
  (∀ (key : string) (node : Node.t),
     AtlasGraph.nodes g !! key = Some node → AtlasGraph.nodes g' !! key = Some node)
  ∧ AtlasGraph.edges g `prefix_of` AtlasGraph.edges g'.
Proof.
  intros [added | edge]; unfold AtlasGraph.exec.
  - rewrite add_node_unfold. case_bool_decide as Hin; simpl; [done |].
    split; [| done]. intros key node Hlook.
    rewrite lookup_insert_ne; [done |].
    intros <-. apply Hin. by eexists.
  - rewrite add_edge_unfold. simpl. split; [done |]. by apply prefix_app_r.
Qed.

Lemma mutations_monotonic_witness :
  AtlasGraph.step Sample.two_nodes Sample.linked
  ∧ (AtlasGraph.nodes Sample.two_nodes !! "patient/1" = Some Sample.patient1
     ∧ AtlasGraph.nodes Sample.linked !! "patient/1" = Some Sample.patient1)
  ∧ AtlasGraph.edges Sample.two_nodes `prefix_of` AtlasGraph.edges Sample.linked.
Proof.
  assert (Hstep : AtlasGraph.step Sample.two_nodes Sample.linked)
    by apply AtlasGraph.step_add_edge.
  assert (Hlook : AtlasGraph.nodes Sample.two_nodes !! "patient/1" = Some Sample.patient1)
    by (vm_compute; reflexivity).
  split; [exact Hstep |]. split; [split; [exact Hlook |] |].
  - exact (proj1 (mutations_monotonic _ _ Hstep) "patient/1" Sample.patient1 Hlook).
  - exact (proj2 (mutations_monotonic _ _ Hstep)).
Defined.

(** ** [EvidenceRef] as a value *)

Lemma EvidenceRef_eq_spec (a b : EvidenceRef.t) :
  EvidenceRef.eq a b = true ↔ a = b.
Proof.
  unfold EvidenceRef.eq. rewrite !andb_true_iff, !String.eqb_eq, !bool_decide_eq_true.
  split.
  - intros [[[Hs Hi] Hu] Hc]. destruct a, b; simpl in *. by subst.
  - by intros ->.
Qed.

(** C7.  [EvidenceRef] has value semantics: assigning to any field of a
    constructed [EvidenceRef] raises [FrozenInstanceError], and two
    values whose four fields are the same compare equal with [==] and
    are the same value, so that either can stand for the other. *)
Theorem EvidenceRef_value_semantics (a b : EvidenceRef.t) :
  (∀ (f : EvidenceRef.field) (value : EvidenceRef.field_type f),
     EvidenceRef.setattr a f value = Raise (FrozenInstanceError (EvidenceRef.field_name f))
     ∧ raises_class "FrozenInstanceError" (EvidenceRef.setattr a f value) = true)
  ∧ (EvidenceRef.source a = EvidenceRef.source b →
     EvidenceRef.id a = EvidenceRef.id b →
     EvidenceRef.uri a = EvidenceRef.uri b →
     EvidenceRef.captured_at a = EvidenceRef.captured_at b →
     EvidenceRef.eq a b = true ∧ a = b).
Proof.
  split.
  - intros f value. unfold EvidenceRef.setattr, dataclass_setattr, EvidenceRef.frozen.
    split; reflexivity.
  - intros Hs Hi Hu Hc.
    assert (Hab : a = b) by (destruct a, b; simpl in *; by subst).
    split; [by apply EvidenceRef_eq_spec | exact Hab].
Qed.

Lemma EvidenceRef_value_semantics_witness :
  EvidenceRef.setattr Sample.fhir_obs1 EvidenceRef.f_id "Observation/2"
  = Raise (FrozenInstanceError "id")
  ∧ EvidenceRef.eq Sample.fhir_obs1 (EvidenceRef.mk "fhir" "Observation/1" None None) = true
  ∧ Sample.fhir_obs1 = EvidenceRef.mk "fhir" "Observation/1" None None.
Proof.
  split.
  - exact (proj1 (proj1 (EvidenceRef_value_semantics Sample.fhir_obs1 Sample.fhir_obs1)
                   EvidenceRef.f_id "Observation/2")).
  - exact (proj2 (EvidenceRef_value_semantics Sample.fhir_obs1
                    (EvidenceRef.mk "fhir" "Observation/1" None None))
             eq_refl eq_refl eq_refl eq_refl).
Defined.

(** C8, as the code has it.  Constructing an [EvidenceRef] checks
    nothing: for every source string, one of the seven variants or not,
    and every id, empty or not, construction raises nothing and the new
    value holds the four arguments as they were given. *)
Theorem EvidenceRef_init_unchecked (source id : string) (uri captured_at : option string) :
  raises (EvidenceRef.init source id uri captured_at) = false
  ∧ ∃ ref : EvidenceRef.t,
      EvidenceRef.init source id uri captured_at = Return ref
      ∧ EvidenceRef.source ref = source
      ∧ EvidenceRef.id ref = id
      ∧ EvidenceRef.uri ref = uri
      ∧ EvidenceRef.captured_at ref = captured_at.
Proof. split; [reflexivity |]. by eexists. Qed.

(** C8, as the specification words it, fails: construction with an empty
    id raises nothing, and so does construction with a source that is
    none of the seven variants. *)
Lemma EvidenceRef_init_accepts_empty_id :
  (is_Source "fhir" = true
   ∧ EvidenceRef.init "fhir" "" None None = Return (EvidenceRef.mk "fhir" "" None None)
   ∧ raises (EvidenceRef.init "fhir" "" None None) = false)
  ∧ (is_Source "xray" = false
     ∧ EvidenceRef.init "xray" "Study/7" None None
       = Return (EvidenceRef.mk "xray" "Study/7" None None)
     ∧ raises (EvidenceRef.init "xray" "Study/7" None None) = false).
Proof. repeat split; vm_compute; reflexivity. Qed.

(** ** Provenance queries *)

Lemma add_all_evidence (acc : gset EvidenceRef.t) (refs : list EvidenceRef.t) :
  foldl (λ acc' ref, {[ref]} ∪ acc') acc refs = acc ∪ list_to_set refs.
Proof.
  revert acc. induction refs as [| ref refs IH]; intros acc; simpl.
  - set_solver.
  - rewrite IH. set_solver.
Qed.

Lemma trace_from (node_id : string) (acc : gset EvidenceRef.t) (es : list Edge.t) :
  foldl (λ acc edge,
           if AtlasGraph.touches node_id edge
           then foldl (λ acc' ref, {[ref]} ∪ acc') acc (Edge.evidence edge)
           else acc) acc es
  = acc ∪ ⋃ ((λ edge, list_to_set (Edge.evidence edge))
               <$> filter (λ edge, AtlasGraph.touches node_id edge = true) es).
Proof.
  revert acc. induction es as [| edge es IH]; intros acc; simpl.
  - set_solver.
  - rewrite IH. destruct (AtlasGraph.touches node_id edge) eqn:Htouch.
    + rewrite filter_cons_True; [| done]. rewrite add_all_evidence. simpl. set_solver.
    + rewrite filter_cons_False; [done |]. by rewrite Htouch.
Qed.

Lemma evidence_sets_elem (node_id : string) (g : AtlasGraph.t) (ref : EvidenceRef.t) :
  ref ∈ ⋃ (AtlasGraph.evidence_sets node_id g) ↔
  ∃ edge : Edge.t,
    edge ∈ AtlasGraph.edges g
    ∧ AtlasGraph.touches node_id edge = true
    ∧ ref ∈ Edge.evidence edge.
Proof.
  unfold AtlasGraph.evidence_sets. rewrite elem_of_union_list. split.
  - intros (S & HS & Href).
    apply list_elem_of_fmap in HS as (edge & -> & Hedge).
    apply list_elem_of_filter in Hedge as [Htouch Hedge].
    exists edge. split; [done |]. split; [done |]. by apply elem_of_list_to_set in Href.
  - intros (edge & Hedge & Htouch & Href).
    exists (list_to_set (Edge.evidence edge)). split.
    + apply list_elem_of_fmap. exists edge. split; [done |].
      by apply list_elem_of_filter.
    + by apply elem_of_list_to_set.
Qed.

(** C9.  [trace(node_id)] is exactly the union [S1 ∪ ... ∪ Sn] of the
    evidence sets of the edges touching [node_id]: a reference is in the
    result if and only if some touching edge carries it, and the result,
    a set, holds each reference once. *)
Theorem trace_complete (node_id : string) (g : AtlasGraph.t) :
  AtlasGraph.trace node_id g = ⋃ (AtlasGraph.evidence_sets node_id g)
  ∧ (∀ ref : EvidenceRef.t,
       ref ∈ AtlasGraph.trace node_id g ↔
       ∃ edge : Edge.t,
         edge ∈ AtlasGraph.edges g
         ∧ AtlasGraph.touches node_id edge = true
         ∧ ref ∈ Edge.evidence edge)
  ∧ NoDup (elements (AtlasGraph.trace node_id g)).
Proof.
  assert (Hunion : AtlasGraph.trace node_id g = ⋃ (AtlasGraph.evidence_sets node_id g)).
  { unfold AtlasGraph.trace, AtlasGraph.evidence_sets. rewrite trace_from. set_solver. }
  split; [exact Hunion |]. split.
  - intros ref. rewrite Hunion. apply evidence_sets_elem.
  - apply NoDup_elements.
Qed.

Lemma trace_complete_witness :
  Sample.subject_edge ∈ AtlasGraph.edges Sample.linked
  ∧ AtlasGraph.touches "patient/1" Sample.subject_edge = true
  ∧ Sample.fhir_obs1 ∈ Edge.evidence Sample.subject_edge
  ∧ Sample.fhir_obs1 ∈ AtlasGraph.trace "patient/1" Sample.linked.
Proof.
  assert (Hedge : Sample.subject_edge ∈ AtlasGraph.edges Sample.linked)
    by (vm_compute; apply list_elem_of_here).
  assert (Htouch : AtlasGraph.touches "patient/1" Sample.subject_edge = true)
    by (vm_compute; reflexivity).
  assert (Href : Sample.fhir_obs1 ∈ Edge.evidence Sample.subject_edge)
    by (vm_compute; apply list_elem_of_here).
  split; [exact Hedge |]. split; [exact Htouch |]. split; [exact Href |].
  exact (proj2 (proj1 (proj2 (trace_complete "patient/1" Sample.linked)) Sample.fhir_obs1)
           (ex_intro _ Sample.subject_edge (conj Hedge (conj Htouch Href)))).
Defined.

(** The scenario of the specification: one edge from [obs/1] to
    [patient/1] cites one FHIR record, and the trace of [patient/1] is
    that record alone. *)
Example trace_patient1 :
  AtlasGraph.trace "patient/1" Sample.linked = {[Sample.fhir_obs1]}.
Proof.
  unfold AtlasGraph.trace. rewrite trace_from.
  change (AtlasGraph.edges Sample.linked) with [Sample.subject_edge].
  rewrite filter_cons_True by reflexivity. rewrite filter_nil.
  simpl. set_solver.
Qed.

(** A second edge citing a lab record twice and the FHIR record again
    adds the lab record once. *)
Example trace_collapses_duplicates :
  AtlasGraph.trace "patient/1"
    (AtlasGraph.exec (AtlasGraph.add_edge Sample.derived_edge) Sample.linked)
  = {[Sample.fhir_obs1; Sample.lab_obs1]}
  ∧ size (AtlasGraph.trace "patient/1"
            (AtlasGraph.exec (AtlasGraph.add_edge Sample.derived_edge) Sample.linked)) = 2.
Proof.
  assert (Htrace : AtlasGraph.trace "patient/1"
                     (AtlasGraph.exec (AtlasGraph.add_edge Sample.derived_edge) Sample.linked)
                   = {[Sample.fhir_obs1; Sample.lab_obs1]}).
  { unfold AtlasGraph.trace. rewrite trace_from.
    change (AtlasGraph.edges (AtlasGraph.exec (AtlasGraph.add_edge Sample.derived_edge) Sample.linked))
      with [Sample.subject_edge; Sample.derived_edge].
    rewrite !filter_cons_True by reflexivity. rewrite filter_nil.
    simpl. set_solver. }
  split; [exact Htrace |]. rewrite Htrace.
  rewrite size_union by (apply disjoint_singleton_l; rewrite elem_of_singleton; discriminate).
  by rewrite !size_singleton.
Qed.

Example trace_unknown_node : AtlasGraph.trace "obs/99" Sample.linked = ∅.
Proof.
  unfold AtlasGraph.trace. rewrite trace_from.
  change (AtlasGraph.edges Sample.linked) with [Sample.subject_edge].
  rewrite filter_cons_False by discriminate. rewrite filter_nil.
  simpl. set_solver.
Qed.

(** ** The sample graph, evaluated *)

Example two_nodes_value :
  Sample.two_nodes
  = AtlasGraph.mk {[ "patient/1" := Sample.patient1; "obs/1" := Sample.obs1 ]} [].
Proof. vm_compute. reflexivity. Qed.

Example first_writer_wins :
  AtlasGraph.add_node Sample.patient1_again Sample.two_nodes = (Return PyNone, Sample.two_nodes).
Proof. vm_compute. reflexivity. Qed.

Example dangling_edge_committed :
  AtlasGraph.add_edge Sample.dangling_edge Sample.two_nodes
  = (Return PyNone, AtlasGraph.mk (AtlasGraph.nodes Sample.two_nodes) [Sample.dangling_edge]).
Proof. vm_compute. reflexivity. Qed.

(** * Further properties of the two methods *)

(** The graph after [add_node], in one equation. *)
Lemma exec_add_node (node : Node.t) (g : AtlasGraph.t) :
  AtlasGraph.exec (AtlasGraph.add_node node) g =
  match AtlasGraph.nodes g !! Node.id node with
  | Some _ => g
  | None => AtlasGraph.mk (<[Node.id node := node]> (AtlasGraph.nodes g)) (AtlasGraph.edges g)
  end.
Proof.
  unfold AtlasGraph.exec. rewrite add_node_unfold.
  destruct (AtlasGraph.nodes g !! Node.id node) as [old |] eqn:Hlook.
  - rewrite bool_decide_eq_true_2; [done | by eexists].
  - rewrite bool_decide_eq_false_2; [done | by intros [? ?]].
Qed.

Lemma exec_add_edge (edge : Edge.t) (g : AtlasGraph.t) :
  AtlasGraph.exec (AtlasGraph.add_edge edge) g
  = AtlasGraph.mk (AtlasGraph.nodes g) (AtlasGraph.edges g ++ [edge]).
Proof. reflexivity. Qed.

(** ** Lookup after insertion *)

(** After [add_node(node)], the key [node.id] holds the node that was
    stored there before the call if there was one and [node] otherwise,
    and every other key holds what it held before. *)
Theorem add_node_lookup (node : Node.t) (g : AtlasGraph.t) (key : string) :
  AtlasGraph.nodes (AtlasGraph.exec (AtlasGraph.add_node node) g) !! key
  = if decide (key = Node.id node)
    then Some (default node (AtlasGraph.nodes g !! Node.id node))
    else AtlasGraph.nodes g !! key.
Proof.
  rewrite exec_add_node.
  destruct (AtlasGraph.nodes g !! Node.id node) as [old |] eqn:Hlook;
    case_decide as Hkey; subst; simpl.
  - done.
  - done.
  - by rewrite lookup_insert_eq.
  - by rewrite lookup_insert_ne.
Qed.

(** [add_node(node)] adds the key [node.id] to the keys of the mapping
    and no other; the mapping has one more entry when the id was absent
    and as many as before when it was present. *)
Theorem add_node_dom_size (node : Node.t) (g : AtlasGraph.t) :
  dom (AtlasGraph.nodes (AtlasGraph.exec (AtlasGraph.add_node node) g))
  = {[Node.id node]} ∪ dom (AtlasGraph.nodes g)
  ∧ size (AtlasGraph.nodes (AtlasGraph.exec (AtlasGraph.add_node node) g))
    = if bool_decide (is_Some (AtlasGraph.nodes g !! Node.id node))
      then size (AtlasGraph.nodes g)
      else S (size (AtlasGraph.nodes g)).
Proof.
  rewrite exec_add_node.
  destruct (AtlasGraph.nodes g !! Node.id node) as [old |] eqn:Hlook.
  - rewrite bool_decide_eq_true_2 by (by eexists). split; [| done].
    assert (Node.id node ∈ dom (AtlasGraph.nodes g)) by (apply elem_of_dom; by eexists).
    set_solver.
  - rewrite bool_decide_eq_false_2 by (by intros [? ?]). simpl. split.
    + apply dom_insert_L.
    + by apply map_size_insert_None.
Qed.

(** ** How the calls compose *)

(** [add_node] and [add_edge] commute: the one writes [self.nodes] only,
    the other [self.edges] only. *)
Theorem add_node_add_edge_commute (node : Node.t) (edge : Edge.t) (g : AtlasGraph.t) :
  AtlasGraph.exec (AtlasGraph.add_node node) (AtlasGraph.exec (AtlasGraph.add_edge edge) g)
  = AtlasGraph.exec (AtlasGraph.add_edge edge) (AtlasGraph.exec (AtlasGraph.add_node node) g).
Proof.
  rewrite !exec_add_node, !exec_add_edge. simpl.
  by destruct (AtlasGraph.nodes g !! Node.id node).
Qed.

(** Two [add_node] calls on nodes with different ids commute. *)
Theorem add_node_commute_distinct (a b : Node.t) (g : AtlasGraph.t) :
  Node.id a ≠ Node.id b →
  AtlasGraph.exec (AtlasGraph.add_node a) (AtlasGraph.exec (AtlasGraph.add_node b) g)
  = AtlasGraph.exec (AtlasGraph.add_node b) (AtlasGraph.exec (AtlasGraph.add_node a) g).
Proof.
  intros Hne. rewrite (exec_add_node b g), (exec_add_node a g).
  destruct (AtlasGraph.nodes g !! Node.id a) as [olda |] eqn:Ha;
    destruct (AtlasGraph.nodes g !! Node.id b) as [oldb |] eqn:Hb;
    rewrite !exec_add_node; simpl;
    rewrite ?lookup_insert_ne by congruence; rewrite ?Ha, ?Hb; try done.
  f_equal. apply insert_insert_ne. congruence.
Qed.

Lemma add_node_commute_distinct_witness :
  Node.id Sample.patient1 ≠ Node.id Sample.obs1
  ∧ AtlasGraph.exec (AtlasGraph.add_node Sample.patient1)
      (AtlasGraph.exec (AtlasGraph.add_node Sample.obs1) AtlasGraph.empty)
    = AtlasGraph.exec (AtlasGraph.add_node Sample.obs1)
        (AtlasGraph.exec (AtlasGraph.add_node Sample.patient1) AtlasGraph.empty).
Proof.
  assert (Hne : Node.id Sample.patient1 ≠ Node.id Sample.obs1) by (simpl; discriminate).
  split; [exact Hne |].
  exact (add_node_commute_distinct Sample.patient1 Sample.obs1 AtlasGraph.empty Hne).
Defined.

(** Two [add_node] calls on different nodes with the same id, that id
    being absent, do not commute: the node of the first call is the one
    stored. *)
Theorem add_node_same_id_order (a b : Node.t) (g : AtlasGraph.t) :
  Node.id a = Node.id b →
  a ≠ b →
  AtlasGraph.nodes g !! Node.id a = None →
  AtlasGraph.nodes (AtlasGraph.exec (AtlasGraph.add_node b) (AtlasGraph.exec (AtlasGraph.add_node a) g))
    !! Node.id a = Some a
  ∧ AtlasGraph.nodes (AtlasGraph.exec (AtlasGraph.add_node a) (AtlasGraph.exec (AtlasGraph.add_node b) g))
      !! Node.id a = Some b
  ∧ AtlasGraph.exec (AtlasGraph.add_node b) (AtlasGraph.exec (AtlasGraph.add_node a) g)
    ≠ AtlasGraph.exec (AtlasGraph.add_node a) (AtlasGraph.exec (AtlasGraph.add_node b) g).
Proof.
  intros Hid Hab Hout.
  assert (Hfirst : AtlasGraph.nodes (AtlasGraph.exec (AtlasGraph.add_node b)
                     (AtlasGraph.exec (AtlasGraph.add_node a) g)) !! Node.id a = Some a).
  { rewrite (exec_add_node a g), Hout, exec_add_node. simpl.
    rewrite <- Hid, lookup_insert_eq. simpl. by rewrite lookup_insert_eq. }
  assert (Hsecond : AtlasGraph.nodes (AtlasGraph.exec (AtlasGraph.add_node a)
                      (AtlasGraph.exec (AtlasGraph.add_node b) g)) !! Node.id a = Some b).
  { rewrite (exec_add_node b g), <- Hid, Hout, exec_add_node. simpl.
    rewrite lookup_insert_eq. simpl. by rewrite lookup_insert_eq. }
  split; [exact Hfirst |]. split; [exact Hsecond |].
  intros Heq. rewrite Heq, Hsecond in Hfirst. by injection Hfirst as ->.
Qed.

Lemma add_node_same_id_order_witness :
  AtlasGraph.nodes
    (AtlasGraph.exec (AtlasGraph.add_node Sample.patient1_again)
       (AtlasGraph.exec (AtlasGraph.add_node Sample.patient1) AtlasGraph.empty))
    !! Node.id Sample.patient1 = Some Sample.patient1
  ∧ AtlasGraph.nodes
      (AtlasGraph.exec (AtlasGraph.add_node Sample.patient1)
         (AtlasGraph.exec (AtlasGraph.add_node Sample.patient1_again) AtlasGraph.empty))
      !! Node.id Sample.patient1 = Some Sample.patient1_again.
Proof.
  assert (Hid : Node.id Sample.patient1 = Node.id Sample.patient1_again) by reflexivity.
  assert (Hne : Sample.patient1 ≠ Sample.patient1_again) by discriminate.
  assert (Hout : AtlasGraph.nodes AtlasGraph.empty !! Node.id Sample.patient1 = None)
    by (vm_compute; reflexivity).
  pose proof (add_node_same_id_order Sample.patient1 Sample.patient1_again AtlasGraph.empty
                Hid Hne Hout) as (Hfirst & Hsecond & _).
  split; [exact Hfirst | exact Hsecond].
Defined.

(** [add_edge] is not idempotent: the same edge added twice is in the
    edge sequence twice, at the end. *)
Theorem add_edge_twice (edge : Edge.t) (g : AtlasGraph.t) :
  AtlasGraph.edges (AtlasGraph.exec (AtlasGraph.add_edge edge) (AtlasGraph.exec (AtlasGraph.add_edge edge) g))
  = AtlasGraph.edges g ++ [edge; edge]
  ∧ AtlasGraph.exec (AtlasGraph.add_edge edge) (AtlasGraph.exec (AtlasGraph.add_edge edge) g)
    ≠ AtlasGraph.exec (AtlasGraph.add_edge edge) g.
Proof.
  rewrite !exec_add_edge. simpl. split.
  - by rewrite <- app_assoc.
  - intros Heq. apply (f_equal (λ g', length (AtlasGraph.edges g'))) in Heq.
    simpl in Heq. rewrite !length_app in Heq. simpl in Heq. lia.
Qed.

(** ** Sequences of calls *)

Lemma perform_returns (c : Calls.call) (g : AtlasGraph.t) :
  fst (Calls.perform c g) = Return PyNone.
Proof.
  destruct c as [node | edge]; simpl.
  - rewrite add_node_unfold. by destruct (bool_decide _).
  - reflexivity.
Qed.

Lemma run_cons (c : Calls.call) (rest : list Calls.call) (g : AtlasGraph.t) :
  Calls.run (c :: rest) g = Calls.run rest (AtlasGraph.exec (Calls.perform c) g).
Proof.
  simpl. unfold mbind, AtlasGraph.Py_bind, AtlasGraph.bind, AtlasGraph.exec.
  pose proof (perform_returns c g) as Hret.
  destruct (Calls.perform c g) as [r g']. simpl in *. by subst.
Qed.

Lemma exec_run_cons (c : Calls.call) (rest : list Calls.call) (g : AtlasGraph.t) :
  AtlasGraph.exec (Calls.run (c :: rest)) g
  = AtlasGraph.exec (Calls.run rest) (AtlasGraph.exec (Calls.perform c) g).
Proof. unfold AtlasGraph.exec at 1 2. by rewrite run_cons. Qed.

Lemma exec_run_nil (g : AtlasGraph.t) : AtlasGraph.exec (Calls.run []) g = g.
Proof. reflexivity. Qed.

(** No sequence of [add_node] and [add_edge] calls raises, and after it
    the edge sequence is the one before followed by the edges of the
    [add_edge] calls, all of them, in call order. *)
Theorem run_edges (calls : list Calls.call) (g : AtlasGraph.t) :
  AtlasGraph.outcome (Calls.run calls) g = Return PyNone
  ∧ AtlasGraph.edges (AtlasGraph.exec (Calls.run calls) g)
    = AtlasGraph.edges g ++ Calls.added_edges calls.
Proof.
  revert g. induction calls as [| c rest IH]; intros g.
  - split; [done |]. rewrite exec_run_nil. change (Calls.added_edges []) with (@nil Edge.t).
    by rewrite app_nil_r.
  - unfold AtlasGraph.outcome. rewrite exec_run_cons, run_cons.
    destruct (IH (AtlasGraph.exec (Calls.perform c) g)) as [IHout IHedges].
    split; [exact IHout |]. rewrite IHedges.
    destruct c as [node | edge].
    + change (Calls.perform (Calls.add_node node)) with (AtlasGraph.add_node node).
      change (Calls.added_edges (Calls.add_node node :: rest)) with (Calls.added_edges rest).
      by rewrite add_node_edges.
    + change (Calls.perform (Calls.add_edge edge)) with (AtlasGraph.add_edge edge).
      change (Calls.added_edges (Calls.add_edge edge :: rest))
        with (edge :: Calls.added_edges rest).
      rewrite exec_add_edge. simpl. by rewrite <- app_assoc.
Qed.

(** After any sequence of calls, a key that was in the mapping holds the
    node it held, and a key that was not holds the node of the first
    [add_node] call with that id, if there is one: the first writer
    wins, whatever comes after. *)
Theorem run_nodes_first_writer (calls : list Calls.call) (g : AtlasGraph.t) (key : string) :
  AtlasGraph.nodes (AtlasGraph.exec (Calls.run calls) g) !! key
  = match AtlasGraph.nodes g !! key with
    | Some node => Some node
    | None => head (filter (λ node, Node.id node = key) (Calls.added_nodes calls))
    end.
Proof.
  revert g. induction calls as [| c rest IH]; intros g.
  - rewrite exec_run_nil. by destruct (AtlasGraph.nodes g !! key).
  - rewrite exec_run_cons, IH. destruct c as [node | edge].
    + change (Calls.perform (Calls.add_node node)) with (AtlasGraph.add_node node).
      change (Calls.added_nodes (Calls.add_node node :: rest))
        with (node :: Calls.added_nodes rest).
      rewrite add_node_lookup. case_decide as Hkey.
      * subst key. rewrite filter_cons_True by done.
        by destruct (AtlasGraph.nodes g !! Node.id node).
      * rewrite filter_cons_False by congruence. done.
    + change (Calls.perform (Calls.add_edge edge)) with (AtlasGraph.add_edge edge).
      change (Calls.added_nodes (Calls.add_edge edge :: rest)) with (Calls.added_nodes rest).
      by rewrite exec_add_edge.
Qed.

(** After any sequence of calls the keys of the mapping are the keys it
    had and the ids of the nodes of the [add_node] calls. *)
Theorem run_dom (calls : list Calls.call) (g : AtlasGraph.t) :
  dom (AtlasGraph.nodes (AtlasGraph.exec (Calls.run calls) g))
  = dom (AtlasGraph.nodes g) ∪ list_to_set (Node.id <$> Calls.added_nodes calls).
Proof.
  revert g. induction calls as [| c rest IH]; intros g.
  - rewrite exec_run_nil. change (Calls.added_nodes []) with (@nil Node.t). set_solver.
  - rewrite exec_run_cons, IH. destruct c as [node | edge].
    + change (Calls.perform (Calls.add_node node)) with (AtlasGraph.add_node node).
      change (Calls.added_nodes (Calls.add_node node :: rest))
        with (node :: Calls.added_nodes rest).
      rewrite exec_add_node.
      destruct (AtlasGraph.nodes g !! Node.id node) as [old |] eqn:Hlook.
      * assert (Node.id node ∈ dom (AtlasGraph.nodes g)) by (apply elem_of_dom; by eexists).
        set_solver.
      * cbn [AtlasGraph.nodes]. rewrite dom_insert_L. set_solver.
    + change (Calls.perform (Calls.add_edge edge)) with (AtlasGraph.add_edge edge).
      change (Calls.added_nodes (Calls.add_edge edge :: rest)) with (Calls.added_nodes rest).
      by rewrite exec_add_edge.
Qed.

Lemma perform_well_keyed (c : Calls.call) (g : AtlasGraph.t) :
  well_keyed (AtlasGraph.exec (Calls.perform c) g) ↔ well_keyed g.
Proof.
  unfold well_keyed. destruct c as [node | edge].
  - change (Calls.perform (Calls.add_node node)) with (AtlasGraph.add_node node).
    rewrite exec_add_node.
    destruct (AtlasGraph.nodes g !! Node.id node) as [old |] eqn:Hlook; [done |].
    cbn [AtlasGraph.nodes]. rewrite map_Forall_insert by done. naive_solver.
  - change (Calls.perform (Calls.add_edge edge)) with (AtlasGraph.add_edge edge).
    by rewrite exec_add_edge.
Qed.

(** The calls neither break nor repair the agreement of keys and ids: a
    graph constructed on a mapping whose keys are the ids of its nodes
    keeps that property through any sequence of calls, and a graph
    constructed on a mapping with a key that is not the id of its node
    never gets rid of it. *)
Theorem run_well_keyed (calls : list Calls.call) (g : AtlasGraph.t) :
  well_keyed (AtlasGraph.exec (Calls.run calls) g) ↔ well_keyed g.
Proof.
  revert g. induction calls as [| c rest IH]; intros g.
  - done.
  - by rewrite exec_run_cons, IH, perform_well_keyed.
Qed.

Lemma run_well_keyed_witness :
  well_keyed AtlasGraph.empty
  ∧ well_keyed
      (AtlasGraph.exec
         (Calls.run [Calls.add_node Sample.patient1; Calls.add_edge Sample.dangling_edge;
                     Calls.add_node Sample.patient1_again; Calls.add_node Sample.obs1])
         AtlasGraph.empty).
Proof.
  assert (Hempty : well_keyed AtlasGraph.empty) by apply map_Forall_empty.
  split; [exact Hempty |].
  exact (proj2 (run_well_keyed _ AtlasGraph.empty) Hempty).
Defined.

Example run_sample :
  AtlasGraph.exec
    (Calls.run [Calls.add_node Sample.patient1; Calls.add_edge Sample.dangling_edge;
                Calls.add_node Sample.patient1_again; Calls.add_node Sample.obs1;
                Calls.add_edge Sample.dangling_edge])
    AtlasGraph.empty
  = AtlasGraph.mk {[ "patient/1" := Sample.patient1; "obs/1" := Sample.obs1 ]}
                  [Sample.dangling_edge; Sample.dangling_edge].
Proof. vm_compute. reflexivity. Qed.

(** ** [==] on [EvidenceRef] *)

(** Two [EvidenceRef] values compare unequal exactly when they differ in
    at least one of the four fields; [uri] and [captured_at] count as
    much as [source] and [id]. *)
Theorem EvidenceRef_eq_distinguishes (a b : EvidenceRef.t) :
  EvidenceRef.eq a b = false ↔
  EvidenceRef.source a ≠ EvidenceRef.source b
  ∨ EvidenceRef.id a ≠ EvidenceRef.id b
  ∨ EvidenceRef.uri a ≠ EvidenceRef.uri b
  ∨ EvidenceRef.captured_at a ≠ EvidenceRef.captured_at b.
Proof.
  rewrite <- not_true_iff_false, EvidenceRef_eq_spec. split.
  - intros Hne.
    destruct (decide (EvidenceRef.source a = EvidenceRef.source b)) as [Hs |]; [| by left].
    destruct (decide (EvidenceRef.id a = EvidenceRef.id b)) as [Hi |]; [| by right; left].
    destruct (decide (EvidenceRef.uri a = EvidenceRef.uri b)) as [Hu |];
      [| by right; right; left].
    right; right; right. intros Hc. apply Hne.
    destruct a, b; simpl in *. by subst.
  - intros Hfields ->. naive_solver.
Qed.

Lemma EvidenceRef_eq_distinguishes_witness :
  EvidenceRef.uri Sample.lab_obs1 ≠ EvidenceRef.uri (EvidenceRef.mk "lab" "L-17" None (Some "2024-01-05T10:00:00Z"))
  ∧ EvidenceRef.eq Sample.lab_obs1 (EvidenceRef.mk "lab" "L-17" None (Some "2024-01-05T10:00:00Z"))
    = false.
Proof.
  assert (Huri : EvidenceRef.uri Sample.lab_obs1
                 ≠ EvidenceRef.uri (EvidenceRef.mk "lab" "L-17" None (Some "2024-01-05T10:00:00Z")))
    by (simpl; discriminate).
  split; [exact Huri |].
  exact (proj2 (EvidenceRef_eq_distinguishes _ _) (or_intror (or_intror (or_introl Huri)))).
Defined.

(** ** Nodes held by reference *)

Lemma view_lookup (h : Heap.t) (key : string) :
  AtlasGraph.nodes (Heap.view h) !! key = Heap.objects h <$> Heap.nodes h !! key.
Proof. unfold Heap.view. simpl. apply lookup_fmap. Qed.

Lemma heap_setattr_unfold (node : Heap.ref) (f : NodeAttr.field)
    (value : NodeAttr.field_type f) (h : Heap.t) :
  Heap.setattr node f value h
  = (Return PyNone,
     Heap.mk (<[node := NodeAttr.assign f value (Heap.objects h node)]> (Heap.objects h))
             (Heap.nodes h) (Heap.edges h)).
Proof. reflexivity. Qed.

(** The graph of values is what the graph of references shows: a call
    of [add_node] or [add_edge] on the graph of references, seen through
    the current values of the objects, is the same call on the graph of
    values, and the call changes no object. *)
Theorem heap_calls_refine (node : Heap.ref) (edge : Edge.t) (h : Heap.t) :
  (Heap.view (snd (Heap.add_node node h))
   = AtlasGraph.exec (AtlasGraph.add_node (Heap.objects h node)) (Heap.view h)
   ∧ Heap.objects (snd (Heap.add_node node h)) = Heap.objects h)
  ∧ (Heap.view (snd (Heap.add_edge edge h))
     = AtlasGraph.exec (AtlasGraph.add_edge edge) (Heap.view h)
     ∧ Heap.objects (snd (Heap.add_edge edge h)) = Heap.objects h).
Proof.
  split; [| by split].
  rewrite exec_add_node, view_lookup. unfold Heap.add_node.
  destruct (Heap.nodes h !! Node.id (Heap.objects h node)) as [r |] eqn:Hlook.
  - rewrite bool_decide_eq_true_2 by (by eexists). by split.
  - rewrite bool_decide_eq_false_2 by (by intros [? ?]). split; [| done].
    unfold Heap.view. simpl. by rewrite fmap_insert.
Qed.

(** [add_node] stores the object, not a copy: after [add_node(node)] has
    inserted the node, an assignment to any of its fields succeeds and
    the graph shows the new value under the key of the insertion. *)
Theorem heap_mutation_visible (node : Heap.ref) (f : NodeAttr.field)
    (value : NodeAttr.field_type f) (h : Heap.t) :
  Heap.nodes h !! Node.id (Heap.objects h node) = None →
  fst (Heap.setattr node f value (snd (Heap.add_node node h))) = Return PyNone
  ∧ AtlasGraph.nodes (Heap.view (snd (Heap.setattr node f value (snd (Heap.add_node node h)))))
      !! Node.id (Heap.objects h node)
    = Some (NodeAttr.assign f value (Heap.objects h node)).
Proof.
  intros Hout. split; [reflexivity |].
  rewrite heap_setattr_unfold, view_lookup. unfold Heap.add_node.
  rewrite bool_decide_eq_false_2 by (rewrite Hout; by intros [? ?]).
  simpl. rewrite lookup_insert_eq. simpl. by rewrite fn_lookup_insert.
Qed.

Lemma heap_mutation_visible_witness :
  Heap.nodes (Heap.mk (λ _, Sample.patient1) ∅ []) !! Node.id Sample.patient1 = None
  ∧ AtlasGraph.nodes
      (Heap.view (snd (Heap.setattr 1%positive NodeAttr.f_kind "Person"
                         (snd (Heap.add_node 1%positive (Heap.mk (λ _, Sample.patient1) ∅ []))))))
      !! "patient/1"
    = Some (Node.mk "patient/1" "Person" []).
Proof.
  assert (Hout : Heap.nodes (Heap.mk (λ _, Sample.patient1) ∅ []) !! Node.id Sample.patient1 = None)
    by (vm_compute; reflexivity).
  split; [exact Hout |].
  exact (proj2 (heap_mutation_visible 1%positive NodeAttr.f_kind "Person"
                  (Heap.mk (λ _, Sample.patient1) ∅ []) Hout)).
Defined.

(** The agreement of keys and ids does not survive an assignment to
    [node.id]: after [add_node(node)] has inserted the node under its
    id, giving the node another id leaves it under the old key. *)
Theorem heap_id_assignment_breaks_keys (node : Heap.ref) (new_id : string) (h : Heap.t) :
  Heap.nodes h !! Node.id (Heap.objects h node) = None →
  new_id ≠ Node.id (Heap.objects h node) →
  ¬ well_keyed
      (Heap.view (snd (Heap.setattr node NodeAttr.f_id new_id (snd (Heap.add_node node h))))).
Proof.
  intros Hout Hnew Hkeyed.
  assert (Hlook : AtlasGraph.nodes
                    (Heap.view (snd (Heap.setattr node NodeAttr.f_id new_id
                                       (snd (Heap.add_node node h)))))
                    !! Node.id (Heap.objects h node)
                  = Some (NodeAttr.assign NodeAttr.f_id new_id (Heap.objects h node))).
  { rewrite heap_setattr_unfold, view_lookup. unfold Heap.add_node.
    rewrite bool_decide_eq_false_2 by (rewrite Hout; by intros [? ?]).
    simpl. rewrite lookup_insert_eq. simpl. by rewrite fn_lookup_insert. }
  apply Hkeyed in Hlook. simpl in Hlook. done.
Qed.

Lemma heap_id_assignment_breaks_keys_witness :
  Heap.nodes (Heap.mk (λ _, Sample.patient1) ∅ []) !! Node.id Sample.patient1 = None
  ∧ "patient/2" ≠ Node.id Sample.patient1
  ∧ ¬ well_keyed
        (Heap.view (snd (Heap.setattr 1%positive NodeAttr.f_id "patient/2"
                           (snd (Heap.add_node 1%positive (Heap.mk (λ _, Sample.patient1) ∅ [])))))).
Proof.
  assert (Hout : Heap.nodes (Heap.mk (λ _, Sample.patient1) ∅ []) !! Node.id Sample.patient1 = None)
    by (vm_compute; reflexivity).
  assert (Hnew : "patient/2" ≠ Node.id Sample.patient1) by (simpl; discriminate).
  split; [exact Hout |]. split; [exact Hnew |].
  exact (heap_id_assignment_breaks_keys 1%positive "patient/2"
           (Heap.mk (λ _, Sample.patient1) ∅ []) Hout Hnew).
Defined.

Lemma assign_keeps_id (f : NodeAttr.field) (value : NodeAttr.field_type f) (obj : Node.t) :
  f ≠ NodeAttr.f_id → Node.id (NodeAttr.assign f value obj) = Node.id obj.
Proof. by destruct f. Qed.

(** An assignment to [kind] or to [payload] of any node, in the graph or
    not, neither breaks nor repairs the agreement of keys and ids. *)
Theorem heap_other_fields_keep_keys (node : Heap.ref) (f : NodeAttr.field)
    (value : NodeAttr.field_type f) (h : Heap.t) :
  f ≠ NodeAttr.f_id →
  well_keyed (Heap.view (snd (Heap.setattr node f value h))) ↔ well_keyed (Heap.view h).
Proof.
  intros Hf. rewrite heap_setattr_unfold. unfold well_keyed, Heap.view. simpl.
  rewrite !map_Forall_fmap. unfold map_Forall.
  assert (Hid : ∀ r : Heap.ref,
             Node.id (<[node := NodeAttr.assign f value (Heap.objects h node)]> (Heap.objects h) r)
             = Node.id (Heap.objects h r)).
  { intros r. destruct (decide (node = r)) as [<- | Hne].
    - rewrite fn_lookup_insert. by apply assign_keeps_id.
    - by rewrite fn_lookup_insert_ne. }
  split; intros Hkeyed key r Hlook; specialize (Hkeyed key r Hlook); simpl in *.
  - by rewrite Hid in Hkeyed.
  - by rewrite Hid.
Qed.

Lemma heap_other_fields_keep_keys_witness :
  NodeAttr.f_payload ≠ NodeAttr.f_id
  ∧ well_keyed (Heap.view (Heap.mk (λ _, Sample.patient1) {[ "patient/1" := 1%positive ]} []))
  ∧ well_keyed
      (Heap.view (snd (Heap.setattr 1%positive NodeAttr.f_payload [("name", PyStr "J. Doe")]
                         (Heap.mk (λ _, Sample.patient1) {[ "patient/1" := 1%positive ]} [])))).
Proof.
  assert (Hf : NodeAttr.f_payload ≠ NodeAttr.f_id) by discriminate.
  assert (Hkeyed : well_keyed (Heap.view (Heap.mk (λ _, Sample.patient1)
                                            {[ "patient/1" := 1%positive ]} []))).
  { unfold well_keyed, Heap.view. simpl. rewrite map_fmap_singleton.
    by apply map_Forall_singleton. }
  split; [exact Hf |]. split; [exact Hkeyed |].
  exact (proj2 (heap_other_fields_keep_keys 1%positive NodeAttr.f_payload
                  [("name", PyStr "J. Doe")] _ Hf) Hkeyed).
Defined.
